(** * The SCC validating webhook (pkg/webhooks/scc/scc.go)

    A shallow embedding of the admission decision of the [scc-validation]
    webhook, and the properties of it that the specification states.

    The Go package is one file.  It depends on a few library packages
    (k8s.io/api, k8s.io/apimachinery, controller-runtime, fmt, net/http);
    the parts of their data the webhook touches are declared below, one
    Rocq module per Go package, with the Go names.  The object decoder of
    controller-runtime is not given a body: the webhook is verified against
    every decoder (see [admissionctl.Codec]). *)

From Stdlib.Strings Require Import String Ascii Byte.
From Stdlib Require Import List Bool ZArith Lia DecimalString.
Import ListNotations.

Local Open Scope string_scope.
Local Open Scope Z_scope.

(* ------------------------------------------------------------------ *)
(** ** net/http: the status codes used *)

Module http.

Definition StatusOK : Z := 200.
Definition StatusBadRequest : Z := 400.
Definition StatusForbidden : Z := 403.

End http.

(* ------------------------------------------------------------------ *)
(** ** fmt: the fragment of [Sprintf] the package uses

    Two calls occur in the package: [%d] applied to an [int32] and [%s]
    applied to a [[]string].  The model covers the verbs [d] and [s]
    (no flags, no width) and [%%], over these two operand kinds; a verb
    that does not fit its operand, or finds none, is printed as Go prints
    it.  The remaining verbs of package fmt are outside this fragment. *)

Module fmt.

Inductive operand : Type :=
| Int32 (n : Z)
| Strings (l : list string).

(** [%d] of a signed integer: decimal digits, [-] in front when negative. *)
Definition decimal (n : Z) : string :=
  NilZero.string_of_int (Z.to_int n).

(** Elements separated by single spaces, as Go prints a slice's elements. *)
Fixpoint spaced (l : list string) : string :=
  match l with
  | [] => ""
  | [x] => x
  | x :: rest => x ++ " " ++ spaced rest
  end.

Definition verb_name (v : ascii) : string := String v "".

(** A verb the operand does not accept: [%!verb(type=value)]. *)
Definition bad_verb (v : ascii) (type value : string) : string :=
  "%!" ++ verb_name v ++ "(" ++ type ++ "=" ++ value ++ ")".

Definition format_operand (v : ascii) (a : operand) : string :=
  match a with
  | Int32 n =>
      if Ascii.eqb v "d" then decimal n
      else bad_verb v "int32" (decimal n)
  | Strings l =>
      if Ascii.eqb v "s" then "[" ++ spaced l ++ "]"
      else "[" ++ spaced (map (bad_verb v "string") l) ++ "]"
  end.

Fixpoint Sprintf (format : string) (a : list operand) : string :=
  match format with
  | "" => ""
  | String "%" "" => "%!(NOVERB)"
  | String "%" (String "%" rest) => String "%" (Sprintf rest a)
  | String "%" (String v rest) =>
      match a with
      | [] => "%!" ++ verb_name v ++ "(MISSING)" ++ Sprintf rest []
      | x :: a' => format_operand v x ++ Sprintf rest a'
      end
  | String c rest => String c (Sprintf rest a)
  end.

End fmt.

(* ------------------------------------------------------------------ *)
(** ** k8s.io/apimachinery: metav1, runtime *)

Module metav1.

(** [metav1.Status], the fields a webhook response fills. *)
Record Status : Type := {
  Code : Z;            (* int32 *)
  Reason : string;     (* StatusReason *)
  Message : string
}.

Record GroupVersionKind : Type := {
  Group : string;
  Version : string;
  Kind : string
}.

End metav1.

Module runtime.

Record RawExtension : Type := {
  Raw : list byte
}.

End runtime.

Module authenticationv1.

Record UserInfo : Type := {
  Username : string
}.

End authenticationv1.

(* ------------------------------------------------------------------ *)
(** ** github.com/openshift/api/security/v1 *)

Module securityv1.

(** The two fields of [SecurityContextConstraints] the webhook reads:
    [ObjectMeta.Name] and [Priority] (a [*int32], nil when absent).  An
    [int32] is a [Z] here; the webhook only compares priorities, so nothing
    wraps around, and every property below holds for all of [Z]. *)
Record SecurityContextConstraints : Type := {
  Name : string;
  Priority : option Z
}.

(** [&securityv1.SecurityContextConstraints{}]: the zero value. *)
Definition zero : SecurityContextConstraints :=
  {| Name := ""; Priority := None |}.

End securityv1.

(* ------------------------------------------------------------------ *)
(** ** k8s.io/api/admission/v1 *)

Module admissionv1.

(** [type Operation string] and its constants. *)
Definition Operation : Type := string.

Definition Create : Operation := "CREATE".
Definition Update : Operation := "UPDATE".
Definition Delete : Operation := "DELETE".
Definition Connect : Operation := "CONNECT".

(** [AdmissionResponse]; [Result] is a [*metav1.Status]. *)
Record AdmissionResponse : Type := {
  UID : string;        (* types.UID *)
  Allowed : bool;
  Result : option metav1.Status
}.

End admissionv1.

(* ------------------------------------------------------------------ *)
(** ** sigs.k8s.io/controller-runtime/pkg/webhook/admission

    The response constructors follow the library at the versions whose
    [NewDecoder] returns an error beside the decoder, as the webhook expects:
    [ValidationResponse] stores its text in [Result.Reason], [Errored]
    stores the error's text in [Result.Message], and neither sets a UID. *)

Module admissionctl.

(** [Request] embeds [admissionv1.AdmissionRequest]; these are the promoted
    fields the webhook reads ([request.AdmissionRequest.UID] is [UID]). *)
Record Request : Type := {
  UID : string;
  Kind : metav1.GroupVersionKind;
  Operation : admissionv1.Operation;
  UserInfo : authenticationv1.UserInfo;
  Object : runtime.RawExtension;
  OldObject : runtime.RawExtension
}.

(** [Response] embeds [admissionv1.AdmissionResponse]; its patches are left
    nil by every constructor used here and are not represented. *)
Definition Response : Type := admissionv1.AdmissionResponse.

(** [ret.UID = uid]: assignment to one field of a response. *)
Definition set_UID (uid : string) (ret : Response) : Response :=
  {| admissionv1.UID := uid;
     admissionv1.Allowed := admissionv1.Allowed ret;
     admissionv1.Result := admissionv1.Result ret |}.

Definition ValidationResponse (allowed : bool) (reason : string) : Response :=
  let code := if allowed then http.StatusOK else http.StatusForbidden in
  {| admissionv1.UID := "";
     admissionv1.Allowed := allowed;
     admissionv1.Result :=
       Some {| metav1.Code := code;
               metav1.Reason := reason;
               metav1.Message := "" |} |}.

Definition Allowed (reason : string) : Response := ValidationResponse true reason.
Definition Denied (reason : string) : Response := ValidationResponse false reason.

(** The decoding interface.  Go's [error] is an interface with one method,
    [Error() string]; [NewDecoder] returns a decoder and an error;
    [DecodeRaw] fills the object it is given and returns an error (nil,
    here [None], on success).  None of them has a body in this
    development: the webhook is verified for every implementation. *)
Class Codec : Type := {
  error : Type;
  Error : error -> string;
  Scheme : Type;
  Decoder : Type;
  NewDecoder : Scheme -> Decoder * option error;
  DecodeRaw :
    Decoder -> runtime.RawExtension -> securityv1.SecurityContextConstraints ->
    securityv1.SecurityContextConstraints * option error
}.

(** [Errored(code, err)]: not allowed, the error's text as message, and no
    UID. *)
Definition Errored `{Codec} (code : Z) (err : error) : Response :=
  {| admissionv1.UID := "";
     admissionv1.Allowed := false;
     admissionv1.Result :=
       Some {| metav1.Code := code;
               metav1.Reason := "";
               metav1.Message := Error err |} |}.

End admissionctl.

(* ------------------------------------------------------------------ *)
(** ** k8s.io/api/admissionregistration/v1 *)

Module admissionregv1.

(** [type OperationType string] and [type ScopeType string]. *)
Definition OperationType : Type := string.
Definition ScopeType : Type := string.

Definition ClusterScope : ScopeType := "Cluster".

(** [RuleWithOperations] embeds [Rule]; these are [Operations] and the
    promoted fields of the rule.  [Scope] is a [*ScopeType]. *)
Record RuleWithOperations : Type := {
  Operations : list OperationType;
  APIGroups : list string;
  APIVersions : list string;
  Resources : list string;
  Scope : option ScopeType
}.

End admissionregv1.

(* ------------------------------------------------------------------ *)
(** ** package scc *)

Module scc.

Definition WebhookName : string := "scc-validation".

Definition docString : string :=
  "Managed OpenShift Customers may not modify the following default SCCs: %s".

Definition timeout : Z := 2.

Definition anyuidPriority : Z := 10.

Definition scope : admissionregv1.ScopeType := admissionregv1.ClusterScope.

Definition rules : list admissionregv1.RuleWithOperations :=
  [ {| admissionregv1.Operations := ["CREATE"; "UPDATE"; "DELETE"];
       admissionregv1.APIGroups := ["security.openshift.io"];
       admissionregv1.APIVersions := ["*"];
       admissionregv1.Resources := ["securitycontextconstraints"];
       admissionregv1.Scope := Some scope |} ].

Definition defaultSCCs : list string :=
  [ "anyuid";
    "hostaccess";
    "hostmount-anyuid";
    "hostnetwork";
    "node-exporter";
    "nonroot";
    "privileged";
    "restricted";
    "pipelines-scc" ].

(** [isDefaultSCC] checks if the request is going to operate on the SCC in
    the default list: the [for ... range defaultSCCs] loop, returning at the
    first equal name. *)
Definition isDefaultSCC (scc : securityv1.SecurityContextConstraints) : bool :=
  (fix range (names : list string) : bool :=
     match names with
     | [] => false
     | s :: rest =>
         if String.eqb (securityv1.Name scc) s then true else range rest
     end) defaultSCCs.

(** [isSCCwithHigherPriority] checks if the SCC has a priority higher than
    10 (default to anyuid). *)
Definition isSCCwithHigherPriority (scc : securityv1.SecurityContextConstraints) : bool :=
  match securityv1.Priority scc with
  | Some priority => if priority >? anyuidPriority then true else false
  | None => false
  end.

Section Webhook.

Context {codec : admissionctl.Codec}.

Record SCCWebHook : Type := {
  s : admissionctl.Scheme
}.

(** [renderSCC] renders the old and the new SCC object from the request.
    Go returns [(oldScc, newScc, nil)] or [(nil, nil, err)]: here [inl] of
    the two objects or [inr] of the error.  A payload is handed to the
    decoder only when it is not empty. *)
Definition renderSCC (hook : SCCWebHook) (request : admissionctl.Request)
  : securityv1.SecurityContextConstraints * securityv1.SecurityContextConstraints
    + admissionctl.error :=
  let (decoder, err) := admissionctl.NewDecoder (s hook) in
  match err with
  | Some e => inr e
  | None =>
      let oldScc := securityv1.zero in
      let newScc := securityv1.zero in
      let (oldScc, err) :=
        if (0 <? length (runtime.Raw (admissionctl.OldObject request)))%nat
        then admissionctl.DecodeRaw decoder (admissionctl.OldObject request) oldScc
        else (oldScc, None) in
      match err with
      | Some e => inr e
      | None =>
          let (newScc, err) :=
            if (0 <? length (runtime.Raw (admissionctl.Object request)))%nat
            then admissionctl.DecodeRaw decoder (admissionctl.Object request) newScc
            else (newScc, None) in
          match err with
          | Some e => inr e
          | None => inl (oldScc, newScc)
          end
      end
  end.

(** The decision.  The [switch] on [request.Operation] compares strings;
    a case whose test fails, and any other operation, falls out of the
    switch to the final [Allowed].  The call to the logger on the error
    path writes to the process log only and is not represented. *)
Definition authorized (hook : SCCWebHook) (request : admissionctl.Request)
  : admissionctl.Response :=
  match renderSCC hook request with
  | inr err => admissionctl.Errored http.StatusBadRequest err
  | inl (oldScc, newScc) =>
      let allow :=
        let ret := admissionctl.Allowed "Request is allowed" in
        admissionctl.set_UID (admissionctl.UID request) ret in
      if String.eqb (admissionctl.Operation request) admissionv1.Delete then
        if isDefaultSCC oldScc then
          let ret := admissionctl.Denied "Deleting default SCCs is not allowed" in
          admissionctl.set_UID (admissionctl.UID request) ret
        else allow
      else if String.eqb (admissionctl.Operation request) admissionv1.Create then
        if isSCCwithHigherPriority newScc then
          let ret :=
            admissionctl.Denied
              (fmt.Sprintf "Creating SCC with priority higher than %d is not allowed"
                 [fmt.Int32 anyuidPriority]) in
          admissionctl.set_UID (admissionctl.UID request) ret
        else allow
      else if String.eqb (admissionctl.Operation request) admissionv1.Update then
        if isDefaultSCC oldScc then
          let ret := admissionctl.Denied "Modifying default SCCs is not allowed" in
          admissionctl.set_UID (admissionctl.UID request) ret
        else if isSCCwithHigherPriority newScc then
          let ret :=
            admissionctl.Denied
              (fmt.Sprintf "Updating SCC with priority higher than %d is not allowed"
                 [fmt.Int32 anyuidPriority]) in
          admissionctl.set_UID (admissionctl.UID request) ret
        else allow
      else allow
  end.

(** [Authorized] implements the Webhook interface. *)
Definition Authorized (hook : SCCWebHook) (request : admissionctl.Request)
  : admissionctl.Response :=
  authorized hook request.

(** [GetURI] implements the Webhook interface. *)
Definition GetURI (hook : SCCWebHook) : string := "/" ++ WebhookName.

(** [Validate] implements the Webhook interface. *)
Definition Validate (hook : SCCWebHook) (request : admissionctl.Request) : bool :=
  let valid := true in
  let valid :=
    valid && negb (String.eqb
                     (authenticationv1.Username (admissionctl.UserInfo request)) "") in
  let valid :=
    valid && String.eqb (metav1.Kind (admissionctl.Kind request))
                        "SecurityContextConstraint" in
  valid.

(** [Name] implements the Webhook interface. *)
Definition Name (hook : SCCWebHook) : string := WebhookName.

(** [Rules] implements the Webhook interface. *)
Definition Rules (hook : SCCWebHook) : list admissionregv1.RuleWithOperations :=
  rules.

(** [TimeoutSeconds] implements the Webhook interface. *)
Definition TimeoutSeconds (hook : SCCWebHook) : Z := timeout.

(** [Doc] implements the Webhook interface. *)
Definition Doc (hook : SCCWebHook) : string :=
  fmt.Sprintf docString [fmt.Strings defaultSCCs].

End Webhook.

End scc.

(* ------------------------------------------------------------------ *)
(** ** A table decoder, for running the webhook on concrete requests

    An instance of [admissionctl.Codec] whose scheme is a finite table
    from payload text to object.  Decoding an empty payload is an error,
    as in controller-runtime ("there is no content to decode"); decoding a
    payload the table does not hold is an error too.  It stands for a real
    deserializer wherever a property is run on a concrete request. *)

Module fixture.

Definition table : Type :=
  list (string * securityv1.SecurityContextConstraints).

Fixpoint find (t : table) (payload : string)
  : option securityv1.SecurityContextConstraints :=
  match t with
  | [] => None
  | (key, object) :: rest =>
      if String.eqb payload key then Some object else find rest payload
  end.

Definition decode (t : table) (raw : runtime.RawExtension)
  (into : securityv1.SecurityContextConstraints)
  : securityv1.SecurityContextConstraints * option string :=
  match runtime.Raw raw with
  | [] => (into, Some "there is no content to decode")
  | payload =>
      match find t (string_of_list_byte payload) with
      | Some object => (object, None)
      | None => (into, Some "couldn't get version/kind; json parse error")
      end
  end.

#[local] Instance codec : admissionctl.Codec := {|
  admissionctl.error := string;
  admissionctl.Error := fun e => e;
  admissionctl.Scheme := table;
  admissionctl.Decoder := table;
  admissionctl.NewDecoder := fun scheme => (scheme, None);
  admissionctl.DecodeRaw := decode
|}.

Definition object (name : string) (priority : option Z)
  : securityv1.SecurityContextConstraints :=
  {| securityv1.Name := name; securityv1.Priority := priority |}.

Definition objects : table :=
  [ ("{metadata: {name: restricted}}", object "restricted" None);
    ("{metadata: {name: restricted}, priority: 5}", object "restricted" (Some 5));
    ("{metadata: {name: custom}}", object "custom" None);
    ("{metadata: {name: custom}, priority: 10}", object "custom" (Some 10));
    ("{metadata: {name: custom}, priority: 15}", object "custom" (Some 15)) ].

Definition hook : scc.SCCWebHook := {| scc.s := objects |}.

Definition payload (text : string) : runtime.RawExtension :=
  {| runtime.Raw := list_byte_of_string text |}.

Definition request (uid : string) (operation : admissionv1.Operation)
  (username : string) (old new : string) : admissionctl.Request :=
  {| admissionctl.UID := uid;
     admissionctl.Kind :=
       {| metav1.Group := "security.openshift.io";
          metav1.Version := "v1";
          metav1.Kind := "SecurityContextConstraints" |};
     admissionctl.Operation := operation;
     admissionctl.UserInfo := {| authenticationv1.Username := username |};
     admissionctl.Object := payload new;
     admissionctl.OldObject := payload old |}.

(** Requests of the kinds the API server sends. *)

Definition uid : string := "705ab4f5-6393-11e8-b7cc-42010a800002".

Definition update_restricted : admissionctl.Request :=
  request uid admissionv1.Update "alice"
    "{metadata: {name: restricted}}" "{metadata: {name: restricted}, priority: 5}".

Definition create_custom_15 : admissionctl.Request :=
  request uid admissionv1.Create "alice" "" "{metadata: {name: custom}, priority: 15}".

Definition delete_custom : admissionctl.Request :=
  request uid admissionv1.Delete "alice" "{metadata: {name: custom}}" "".

Definition delete_restricted : admissionctl.Request :=
  request uid admissionv1.Delete "alice" "{metadata: {name: restricted}}" "".

Definition connect_custom : admissionctl.Request :=
  request uid admissionv1.Connect "alice" "" "{metadata: {name: custom}, priority: 15}".

Definition create_empty : admissionctl.Request :=
  request uid admissionv1.Create "alice" "" "".

(** A Delete whose prior payload is cut short. *)
Definition delete_malformed : admissionctl.Request :=
  request uid admissionv1.Delete "alice" "{metadata: {name: restr" "".

(** An Update whose two payloads are both cut short. *)
Definition update_malformed : admissionctl.Request :=
  request uid admissionv1.Update "alice" "{metadata: {name: restr" "{metadata: ".

Definition update_custom_15 : admissionctl.Request :=
  request uid admissionv1.Update "alice"
    "{metadata: {name: custom}}" "{metadata: {name: custom}, priority: 15}".

End fixture.

(* ------------------------------------------------------------------ *)
(** ** The vocabulary of the properties

    The decisions as a caller sees them, written out field by field, the
    requests that differ from a given one in a single field, and the names
    a documentation string lists.  The theorems compare what the webhook
    computes with these. *)

Module decision.

(** A policy denial: not allowed, status 403, the reason given. *)
Definition denied (uid reason : string) : admissionctl.Response :=
  {| admissionv1.UID := uid;
     admissionv1.Allowed := false;
     admissionv1.Result :=
       Some {| metav1.Code := 403; metav1.Reason := reason; metav1.Message := "" |} |}.

(** The admission: allowed, status 200. *)
Definition allowed (uid : string) : admissionctl.Response :=
  {| admissionv1.UID := uid;
     admissionv1.Allowed := true;
     admissionv1.Result :=
       Some {| metav1.Code := 200;
               metav1.Reason := "Request is allowed";
               metav1.Message := "" |} |}.

(** The status of a rejected request: 400 and the error's text. *)
Definition rejected (message : string) : metav1.Status :=
  {| metav1.Code := 400; metav1.Reason := ""; metav1.Message := message |}.

(** The priority is present and above the ceiling of 10. *)
Definition above_ceiling (object : securityv1.SecurityContextConstraints) : Prop :=
  exists priority, securityv1.Priority object = Some priority /\ priority > 10.

(** The request with another operation, every other field kept. *)
Definition with_operation (operation : admissionv1.Operation)
  (request : admissionctl.Request) : admissionctl.Request :=
  {| admissionctl.UID := admissionctl.UID request;
     admissionctl.Kind := admissionctl.Kind request;
     admissionctl.Operation := operation;
     admissionctl.UserInfo := admissionctl.UserInfo request;
     admissionctl.Object := admissionctl.Object request;
     admissionctl.OldObject := admissionctl.OldObject request |}.

(** The request with another requester, every other field kept. *)
Definition with_username (username : string)
  (request : admissionctl.Request) : admissionctl.Request :=
  {| admissionctl.UID := admissionctl.UID request;
     admissionctl.Kind := admissionctl.Kind request;
     admissionctl.Operation := admissionctl.Operation request;
     admissionctl.UserInfo := {| authenticationv1.Username := username |};
     admissionctl.Object := admissionctl.Object request;
     admissionctl.OldObject := admissionctl.OldObject request |}.

(** The object a payload renders to under a decoder: the zero value for
    an empty payload, what the decoder makes of the zero value otherwise. *)
Definition renders_to `{admissionctl.Codec} (decoder : admissionctl.Decoder)
  (raw : runtime.RawExtension)
  (object : securityv1.SecurityContextConstraints) : Prop :=
  (runtime.Raw raw = [] /\ object = securityv1.zero)
  \/ (runtime.Raw raw <> []
      /\ admissionctl.DecodeRaw decoder raw securityv1.zero = (object, None)).

(** The operation is one a rule of the list is registered for. *)
Definition registered (operation : admissionv1.Operation)
  (rules : list admissionregv1.RuleWithOperations) : Prop :=
  exists rule, In rule rules /\ In operation (admissionregv1.Operations rule).

(** The names a documentation string lists: the words, separated by single
    spaces, between its first "[" and the "]" that follows. *)
Fixpoint bracketed (doc : string) : option string :=
  match doc with
  | "" => None
  | String c rest => if Ascii.eqb c "[" then Some rest else bracketed rest
  end.

Fixpoint words (current : string) (text : string) : list string :=
  match text with
  | "" => []
  | String c rest =>
      if Ascii.eqb c "]" then [current]
      else if Ascii.eqb c " " then current :: words "" rest
      else words (current ++ String c "") rest
  end.

Definition listed_names (doc : string) : list string :=
  match bracketed doc with
  | Some (String "]" _) => []
  | Some text => words "" text
  | None => []
  end.

End decision.

(* ------------------------------------------------------------------ *)
(** ** Properties *)

Module scc_properties.

Import decision.

(** Closes a conjunction of equivalences between responses and conditions
    once the goal's conditionals are decided. *)
Ltac settle :=
  repeat split; intros;
  try reflexivity; try discriminate; try tauto.

(** The operation of the request decided in the goal, as a hypothesis per
    case of the switch. *)
Ltac switch_on request :=
  destruct (String.eqb_spec (admissionctl.Operation request) admissionv1.Delete)
    as [Hdelete|Hdelete];
  [|destruct (String.eqb_spec (admissionctl.Operation request) admissionv1.Create)
      as [Hcreate|Hcreate];
    [|destruct (String.eqb_spec (admissionctl.Operation request) admissionv1.Update)
        as [Hupdate|Hupdate]]].

(** *** The two predicates *)

Lemma range_true_iff_In (name : string) (names : list string) :
  (fix range (l : list string) : bool :=
     match l with
     | [] => false
     | s :: rest => if String.eqb name s then true else range rest
     end) names = true <-> In name names.
Proof.
  induction names as [|s rest IH]; simpl.
  - split; [discriminate | tauto].
  - destruct (String.eqb_spec name s) as [->|Hne].
    + split; auto.
    + rewrite IH. split; [auto | intros [Heq|Hin]; [congruence | exact Hin]].
Qed.

Lemma isDefaultSCC_true_iff (object : securityv1.SecurityContextConstraints) :
  scc.isDefaultSCC object = true <-> In (securityv1.Name object) scc.defaultSCCs.
Proof. unfold scc.isDefaultSCC. apply range_true_iff_In. Qed.

Lemma isDefaultSCC_false_iff (object : securityv1.SecurityContextConstraints) :
  scc.isDefaultSCC object = false <-> ~ In (securityv1.Name object) scc.defaultSCCs.
Proof.
  rewrite <- isDefaultSCC_true_iff.
  destruct (scc.isDefaultSCC object); split; congruence.
Qed.

Lemma isSCCwithHigherPriority_true_iff (object : securityv1.SecurityContextConstraints) :
  scc.isSCCwithHigherPriority object = true <-> above_ceiling object.
Proof.
  unfold scc.isSCCwithHigherPriority, above_ceiling, scc.anyuidPriority.
  destruct (securityv1.Priority object) as [priority|].
  - destruct (Z.gtb_spec priority 10) as [Hgt|Hle]; split.
    + intros _. exists priority. split; [reflexivity | lia].
    + reflexivity.
    + discriminate.
    + intros [q [Hq Hgt]]. injection Hq as <-. lia.
  - split; [discriminate | intros [q [Hq _]]; discriminate].
Qed.

Lemma isSCCwithHigherPriority_false_iff (object : securityv1.SecurityContextConstraints) :
  scc.isSCCwithHigherPriority object = false <-> ~ above_ceiling object.
Proof.
  rewrite <- isSCCwithHigherPriority_true_iff.
  destruct (scc.isSCCwithHigherPriority object); split; congruence.
Qed.

Section Decisions.

Context {codec : admissionctl.Codec}.
Variable hook : scc.SCCWebHook.

(** *** The decision once both objects are rendered *)

Lemma authorized_delete (request : admissionctl.Request)
  (oldScc newScc : securityv1.SecurityContextConstraints) :
  admissionctl.Operation request = admissionv1.Delete ->
  scc.renderSCC hook request = inl (oldScc, newScc) ->
  scc.authorized hook request =
    if scc.isDefaultSCC oldScc
    then denied (admissionctl.UID request) "Deleting default SCCs is not allowed"
    else allowed (admissionctl.UID request).
Proof.
  intros Hop Hrender. unfold scc.authorized. rewrite Hrender, Hop. simpl.
  destruct (scc.isDefaultSCC oldScc); reflexivity.
Qed.

Lemma authorized_create (request : admissionctl.Request)
  (oldScc newScc : securityv1.SecurityContextConstraints) :
  admissionctl.Operation request = admissionv1.Create ->
  scc.renderSCC hook request = inl (oldScc, newScc) ->
  scc.authorized hook request =
    if scc.isSCCwithHigherPriority newScc
    then denied (admissionctl.UID request)
           "Creating SCC with priority higher than 10 is not allowed"
    else allowed (admissionctl.UID request).
Proof.
  intros Hop Hrender. unfold scc.authorized. rewrite Hrender, Hop. simpl.
  destruct (scc.isSCCwithHigherPriority newScc); reflexivity.
Qed.

Lemma authorized_update (request : admissionctl.Request)
  (oldScc newScc : securityv1.SecurityContextConstraints) :
  admissionctl.Operation request = admissionv1.Update ->
  scc.renderSCC hook request = inl (oldScc, newScc) ->
  scc.authorized hook request =
    if scc.isDefaultSCC oldScc
    then denied (admissionctl.UID request) "Modifying default SCCs is not allowed"
    else if scc.isSCCwithHigherPriority newScc
    then denied (admissionctl.UID request)
           "Updating SCC with priority higher than 10 is not allowed"
    else allowed (admissionctl.UID request).
Proof.
  intros Hop Hrender. unfold scc.authorized. rewrite Hrender, Hop. simpl.
  destruct (scc.isDefaultSCC oldScc); [reflexivity|].
  destruct (scc.isSCCwithHigherPriority newScc); reflexivity.
Qed.

(** *** Rendering, case by case *)

Lemma renderSCC_cases (request : admissionctl.Request) :
  scc.renderSCC hook request =
    match admissionctl.NewDecoder (scc.s hook) with
    | (_, Some e) => inr e
    | (decoder, None) =>
        let new (oldScc : securityv1.SecurityContextConstraints) :=
          match runtime.Raw (admissionctl.Object request) with
          | [] => inl (oldScc, securityv1.zero)
          | _ :: _ =>
              match admissionctl.DecodeRaw decoder (admissionctl.Object request)
                      securityv1.zero with
              | (newScc, None) => inl (oldScc, newScc)
              | (_, Some e) => inr e
              end
          end in
        match runtime.Raw (admissionctl.OldObject request) with
        | [] => new securityv1.zero
        | _ :: _ =>
            match admissionctl.DecodeRaw decoder (admissionctl.OldObject request)
                    securityv1.zero with
            | (oldScc, None) => new oldScc
            | (_, Some e) => inr e
            end
        end
    end.
Proof.
  unfold scc.renderSCC.
  destruct (admissionctl.NewDecoder (scc.s hook)) as [decoder [e|]]; [reflexivity|].
  destruct (runtime.Raw (admissionctl.OldObject request)) as [|b old]; simpl.
  - destruct (runtime.Raw (admissionctl.Object request)) as [|c new]; simpl;
      [reflexivity|].
    destruct (admissionctl.DecodeRaw decoder (admissionctl.Object request) _)
      as [newScc [e|]]; reflexivity.
  - destruct (admissionctl.DecodeRaw decoder (admissionctl.OldObject request) _)
      as [oldScc [e|]]; [reflexivity|].
    destruct (runtime.Raw (admissionctl.Object request)) as [|c new]; simpl;
      [reflexivity|].
    destruct (admissionctl.DecodeRaw decoder (admissionctl.Object request) _)
      as [newScc [e|]]; reflexivity.
Qed.

Lemma renderSCC_with_operation (operation : admissionv1.Operation)
  (request : admissionctl.Request) :
  scc.renderSCC hook (with_operation operation request) = scc.renderSCC hook request.
Proof. reflexivity. Qed.

(** The UID of the response on each side of the rendering: the request's
    after a successful rendering, the empty string after a failed one. *)
Lemma authorized_UID (request : admissionctl.Request) :
  admissionv1.UID (scc.authorized hook request) =
    match scc.renderSCC hook request with
    | inl _ => admissionctl.UID request
    | inr _ => ""
    end.
Proof.
  unfold scc.authorized.
  destruct (scc.renderSCC hook request) as [[oldScc newScc]|err]; [|reflexivity].
  repeat match goal with
  | |- context [if ?b then _ else _] => destruct b
  end; reflexivity.
Qed.

Lemma authorized_rejected (request : admissionctl.Request) (err : admissionctl.error) :
  scc.renderSCC hook request = inr err ->
  scc.authorized hook request = admissionctl.Errored http.StatusBadRequest err.
Proof. intros Hrender. unfold scc.authorized. rewrite Hrender. reflexivity. Qed.

(** *** The rules, operation by operation *)

(** C2. An Update request whose objects were rendered: the default-SCC
    check comes first and alone decides the denial "Modifying default SCCs
    is not allowed", whatever the proposed priority is; when the prior name
    is not a default one, the request is denied with "Updating SCC with
    priority higher than 10 is not allowed" exactly when the proposed
    priority is present and above 10; in the remaining case the request is
    allowed. *)
Theorem update_checks_in_order (request : admissionctl.Request)
  (oldScc newScc : securityv1.SecurityContextConstraints) :
  admissionctl.Operation request = admissionv1.Update ->
  scc.renderSCC hook request = inl (oldScc, newScc) ->
  (scc.authorized hook request =
     denied (admissionctl.UID request) "Modifying default SCCs is not allowed"
   <-> In (securityv1.Name oldScc) scc.defaultSCCs)
  /\ (scc.authorized hook request =
       denied (admissionctl.UID request)
         "Updating SCC with priority higher than 10 is not allowed"
     <-> ~ In (securityv1.Name oldScc) scc.defaultSCCs /\ above_ceiling newScc)
  /\ (scc.authorized hook request = allowed (admissionctl.UID request)
     <-> ~ In (securityv1.Name oldScc) scc.defaultSCCs /\ ~ above_ceiling newScc).
Proof.
  intros Hop Hrender. rewrite (authorized_update request oldScc newScc Hop Hrender).
  destruct (scc.isDefaultSCC oldScc) eqn:Hdefault.
  - apply isDefaultSCC_true_iff in Hdefault. settle.
  - apply isDefaultSCC_false_iff in Hdefault.
    destruct (scc.isSCCwithHigherPriority newScc) eqn:Hpriority.
    + apply isSCCwithHigherPriority_true_iff in Hpriority. settle.
    + apply isSCCwithHigherPriority_false_iff in Hpriority. settle.
Qed.

(** C3. A Create request whose objects were rendered is denied with
    "Creating SCC with priority higher than 10 is not allowed" exactly when
    the proposed priority is present and strictly above 10, and is allowed
    otherwise: a priority of 10 is allowed, an absent priority is allowed,
    a priority of 11 is denied. *)
Theorem create_denied_iff_above_ceiling (request : admissionctl.Request)
  (oldScc newScc : securityv1.SecurityContextConstraints) :
  admissionctl.Operation request = admissionv1.Create ->
  scc.renderSCC hook request = inl (oldScc, newScc) ->
  (scc.authorized hook request =
     denied (admissionctl.UID request)
       "Creating SCC with priority higher than 10 is not allowed"
   <-> above_ceiling newScc)
  /\ (scc.authorized hook request = allowed (admissionctl.UID request)
     <-> ~ above_ceiling newScc)
  /\ (securityv1.Priority newScc = Some 10 ->
     scc.authorized hook request = allowed (admissionctl.UID request))
  /\ (securityv1.Priority newScc = None ->
     scc.authorized hook request = allowed (admissionctl.UID request))
  /\ (securityv1.Priority newScc = Some 11 ->
     scc.authorized hook request =
       denied (admissionctl.UID request)
         "Creating SCC with priority higher than 10 is not allowed").
Proof.
  intros Hop Hrender. rewrite (authorized_create request oldScc newScc Hop Hrender).
  assert (Hten : securityv1.Priority newScc = Some 10 -> ~ above_ceiling newScc).
  { intros Hp [q [Hq Hgt]]. rewrite Hp in Hq. injection Hq as <-. lia. }
  assert (Hnone : securityv1.Priority newScc = None -> ~ above_ceiling newScc).
  { intros Hp [q [Hq _]]. rewrite Hp in Hq. discriminate. }
  assert (Heleven : securityv1.Priority newScc = Some 11 -> above_ceiling newScc).
  { intros Hp. exists 11. split; [exact Hp | lia]. }
  destruct (scc.isSCCwithHigherPriority newScc) eqn:Hpriority.
  - apply isSCCwithHigherPriority_true_iff in Hpriority. settle.
  - apply isSCCwithHigherPriority_false_iff in Hpriority. settle.
Qed.

(** C4. A Delete request whose objects were rendered is denied with
    "Deleting default SCCs is not allowed" exactly when the prior SCC's name
    is one of the default names, and is allowed for any other prior name. *)
Theorem delete_denied_iff_default (request : admissionctl.Request)
  (oldScc newScc : securityv1.SecurityContextConstraints) :
  admissionctl.Operation request = admissionv1.Delete ->
  scc.renderSCC hook request = inl (oldScc, newScc) ->
  (scc.authorized hook request =
     denied (admissionctl.UID request) "Deleting default SCCs is not allowed"
   <-> In (securityv1.Name oldScc) scc.defaultSCCs)
  /\ (scc.authorized hook request = allowed (admissionctl.UID request)
     <-> ~ In (securityv1.Name oldScc) scc.defaultSCCs).
Proof.
  intros Hop Hrender. rewrite (authorized_delete request oldScc newScc Hop Hrender).
  destruct (scc.isDefaultSCC oldScc) eqn:Hdefault.
  - apply isDefaultSCC_true_iff in Hdefault. settle.
  - apply isDefaultSCC_false_iff in Hdefault. settle.
Qed.

(** C8. A request whose operation is none of Create, Update and Delete, and
    whose objects were rendered, is allowed: no denial rule applies. *)
Theorem other_operation_allowed (request : admissionctl.Request)
  (oldScc newScc : securityv1.SecurityContextConstraints) :
  admissionctl.Operation request <> admissionv1.Create ->
  admissionctl.Operation request <> admissionv1.Update ->
  admissionctl.Operation request <> admissionv1.Delete ->
  scc.renderSCC hook request = inl (oldScc, newScc) ->
  scc.authorized hook request = allowed (admissionctl.UID request).
Proof.
  intros Hcreate Hupdate Hdelete Hrender.
  unfold scc.authorized. rewrite Hrender.
  apply String.eqb_neq in Hcreate, Hupdate, Hdelete.
  rewrite Hcreate, Hupdate, Hdelete. reflexivity.
Qed.

(** C5. The request-validity predicate holds exactly when the requester's
    username is not the empty string and the kind of the target is the
    string "SecurityContextConstraint". *)
Theorem Validate_true_iff (request : admissionctl.Request) :
  scc.Validate hook request = true <->
  authenticationv1.Username (admissionctl.UserInfo request) <> ""
  /\ metav1.Kind (admissionctl.Kind request) = "SecurityContextConstraint".
Proof.
  unfold scc.Validate. simpl.
  rewrite andb_true_iff, negb_true_iff, String.eqb_neq, String.eqb_eq.
  reflexivity.
Qed.

(** *** Decode failures and empty payloads *)

(** C6. When a payload that is not empty fails to decode, the rendering
    ends in an error and the response is the rejection built from that
    error: not allowed, status 400 with the error's text, which is neither a
    policy denial nor the admission.  No rule is evaluated: the response is
    the same whatever the operation of the request. *)
Theorem decode_failure_rejects (request : admissionctl.Request) :
  (runtime.Raw (admissionctl.OldObject request) <> []
   /\ snd (admissionctl.DecodeRaw (fst (admissionctl.NewDecoder (scc.s hook)))
             (admissionctl.OldObject request) securityv1.zero) <> None)
  \/ (runtime.Raw (admissionctl.Object request) <> []
      /\ snd (admissionctl.DecodeRaw (fst (admissionctl.NewDecoder (scc.s hook)))
                (admissionctl.Object request) securityv1.zero) <> None) ->
  exists err : admissionctl.error,
    scc.renderSCC hook request = inr err
    /\ scc.authorized hook request = admissionctl.Errored http.StatusBadRequest err
    /\ admissionv1.Allowed (scc.authorized hook request) = false
    /\ admissionv1.Result (scc.authorized hook request)
       = Some (rejected (admissionctl.Error err))
    /\ (forall uid reason, scc.authorized hook request <> denied uid reason)
    /\ (forall uid, scc.authorized hook request <> allowed uid)
    /\ (forall operation,
          scc.authorized hook (with_operation operation request)
          = scc.authorized hook request).
Proof.
  intros Hfail.
  assert (Herr : exists err, scc.renderSCC hook request = inr err).
  { rewrite renderSCC_cases.
    destruct (admissionctl.NewDecoder (scc.s hook)) as [decoder [e|]];
      [exists e; reflexivity|].
    simpl in Hfail. cbv zeta.
    destruct (runtime.Raw (admissionctl.OldObject request)) as [|b old].
    - destruct Hfail as [[Hold _]|[Hnew Hnone]]; [congruence|].
      destruct (runtime.Raw (admissionctl.Object request)) as [|c new];
        [congruence|].
      destruct (admissionctl.DecodeRaw decoder (admissionctl.Object request) _)
        as [newScc [e|]]; [exists e; reflexivity | simpl in Hnone; congruence].
    - destruct (admissionctl.DecodeRaw decoder (admissionctl.OldObject request) _)
        as [oldScc [e|]] eqn:Hdecode; [exists e; reflexivity|].
      destruct Hfail as [[_ Hnone]|[Hnew Hnone]]; [simpl in Hnone; congruence|].
      destruct (runtime.Raw (admissionctl.Object request)) as [|c new];
        [congruence|].
      destruct (admissionctl.DecodeRaw decoder (admissionctl.Object request) _)
        as [newScc [e|]]; [exists e; reflexivity | simpl in Hnone; congruence]. }
  destruct Herr as [err Hrender]. exists err.
  assert (Hresponse := authorized_rejected request err Hrender).
  split; [exact Hrender|]. split; [exact Hresponse|].
  rewrite Hresponse.
  repeat split; try discriminate.
  intros operation.
  apply authorized_rejected. rewrite renderSCC_with_operation. exact Hrender.
Qed.

(** C7. An empty payload is never handed to the decoder: an error of the
    rendering is the error of building the decoder or of decoding a payload
    that is not empty, and with a decoder and two empty payloads the
    rendering succeeds.  The object rendered from an empty payload is the
    zero value, with the empty name and no priority.  The empty name is not
    a default name, so a request whose prior payload is empty is never
    answered with one of the two default-SCC denials. *)
Theorem empty_payload_renders_zero (request : admissionctl.Request) :
  (forall err, scc.renderSCC hook request = inr err ->
     snd (admissionctl.NewDecoder (scc.s hook)) = Some err
     \/ (runtime.Raw (admissionctl.OldObject request) <> []
         /\ snd (admissionctl.DecodeRaw (fst (admissionctl.NewDecoder (scc.s hook)))
                   (admissionctl.OldObject request) securityv1.zero) = Some err)
     \/ (runtime.Raw (admissionctl.Object request) <> []
         /\ snd (admissionctl.DecodeRaw (fst (admissionctl.NewDecoder (scc.s hook)))
                   (admissionctl.Object request) securityv1.zero) = Some err))
  /\ (forall oldScc newScc, scc.renderSCC hook request = inl (oldScc, newScc) ->
       (runtime.Raw (admissionctl.OldObject request) = [] -> oldScc = securityv1.zero)
       /\ (runtime.Raw (admissionctl.Object request) = [] -> newScc = securityv1.zero))
  /\ (snd (admissionctl.NewDecoder (scc.s hook)) = None ->
       runtime.Raw (admissionctl.OldObject request) = [] ->
       runtime.Raw (admissionctl.Object request) = [] ->
       scc.renderSCC hook request = inl (securityv1.zero, securityv1.zero))
  /\ securityv1.Name securityv1.zero = ""
  /\ securityv1.Priority securityv1.zero = None
  /\ scc.isDefaultSCC securityv1.zero = false
  /\ ~ In "" scc.defaultSCCs
  /\ (runtime.Raw (admissionctl.OldObject request) = [] ->
       forall uid,
         scc.authorized hook request
           <> denied uid "Deleting default SCCs is not allowed"
         /\ scc.authorized hook request
           <> denied uid "Modifying default SCCs is not allowed").
Proof.
  assert (Hempty : ~ In "" scc.defaultSCCs).
  { apply (isDefaultSCC_false_iff securityv1.zero). reflexivity. }
  split; [|split; [|split]].
  - intros err. rewrite renderSCC_cases.
    destruct (admissionctl.NewDecoder (scc.s hook)) as [decoder [e|]]; simpl.
    + intros [= ->]. left. reflexivity.
    + destruct (runtime.Raw (admissionctl.OldObject request)) as [|b old].
      * destruct (runtime.Raw (admissionctl.Object request)) as [|c new];
          [discriminate|].
        destruct (admissionctl.DecodeRaw decoder (admissionctl.Object request) _)
          as [newScc [e|]]; [|discriminate].
        intros [= ->]. right. right. split; [discriminate | reflexivity].
      * destruct (admissionctl.DecodeRaw decoder (admissionctl.OldObject request) _)
          as [oldScc [e|]].
        { intros [= ->]. right. left. split; [discriminate | reflexivity]. }
        destruct (runtime.Raw (admissionctl.Object request)) as [|c new];
          [discriminate|].
        destruct (admissionctl.DecodeRaw decoder (admissionctl.Object request) _)
          as [newScc [e|]]; [|discriminate].
        intros [= ->]. right. right. split; [discriminate | reflexivity].
  - intros oldScc newScc. rewrite renderSCC_cases.
    destruct (admissionctl.NewDecoder (scc.s hook)) as [decoder [e|]];
      [discriminate|]. cbv zeta.
    destruct (runtime.Raw (admissionctl.OldObject request)) as [|b old].
    + destruct (runtime.Raw (admissionctl.Object request)) as [|c new].
      * intros [= <- <-]. split; reflexivity.
      * destruct (admissionctl.DecodeRaw decoder (admissionctl.Object request) _)
          as [n [e|]]; [discriminate|].
        intros [= <- <-]. split; [reflexivity | discriminate].
    + destruct (admissionctl.DecodeRaw decoder (admissionctl.OldObject request) _)
        as [o [e|]]; [discriminate|].
      destruct (runtime.Raw (admissionctl.Object request)) as [|c new].
      * intros [= <- <-]. split; [discriminate | reflexivity].
      * destruct (admissionctl.DecodeRaw decoder (admissionctl.Object request) _)
          as [n [e|]]; [discriminate|].
        intros [= <- <-]. split; discriminate.
  - intros Hdecoder Hold Hnew. rewrite renderSCC_cases.
    destruct (admissionctl.NewDecoder (scc.s hook)) as [decoder [e|]];
      [discriminate|].
    cbv zeta. rewrite Hold, Hnew. reflexivity.
  - do 4 (split; [first [reflexivity | exact Hempty]|]).
    intros Hold uid. unfold scc.authorized. rewrite renderSCC_cases.
    destruct (admissionctl.NewDecoder (scc.s hook)) as [decoder [e|]];
      [split; discriminate|].
    cbv zeta. rewrite Hold.
    destruct (runtime.Raw (admissionctl.Object request)) as [|c new].
    + cbv beta iota zeta.
      change (scc.isDefaultSCC securityv1.zero) with false. cbv iota.
      repeat match goal with
      | |- context [if ?b then _ else _] => destruct b
      end; split; discriminate.
    + destruct (admissionctl.DecodeRaw decoder (admissionctl.Object request) _)
        as [n [e|]]; [split; discriminate|].
      cbv beta iota zeta.
      change (scc.isDefaultSCC securityv1.zero) with false. cbv iota.
      repeat match goal with
      | |- context [if ?b then _ else _] => destruct b
      end; split; discriminate.
Qed.

(** *** The documentation and the requester *)

(** C9. The documentation string is the template with the list of default
    names in place of its verb; the names it lists are the list the
    default-SCC predicate ranges over, so a name is protected exactly when
    the documentation lists it, and the Delete and Update denials for
    default SCCs are given exactly for the listed names. *)
Theorem Doc_lists_protected_names :
  scc.Doc hook = fmt.Sprintf scc.docString [fmt.Strings scc.defaultSCCs]
  /\ scc.Doc hook =
     "Managed OpenShift Customers may not modify the following default SCCs: "
     ++ "[" ++ fmt.spaced scc.defaultSCCs ++ "]"
  /\ listed_names (scc.Doc hook) = scc.defaultSCCs
  /\ (forall object,
       scc.isDefaultSCC object = true
       <-> In (securityv1.Name object) (listed_names (scc.Doc hook)))
  /\ (forall request oldScc newScc,
       scc.renderSCC hook request = inl (oldScc, newScc) ->
       (admissionctl.Operation request = admissionv1.Delete ->
        (scc.authorized hook request =
           denied (admissionctl.UID request) "Deleting default SCCs is not allowed"
         <-> In (securityv1.Name oldScc) (listed_names (scc.Doc hook))))
       /\ (admissionctl.Operation request = admissionv1.Update ->
           (scc.authorized hook request =
              denied (admissionctl.UID request) "Modifying default SCCs is not allowed"
            <-> In (securityv1.Name oldScc) (listed_names (scc.Doc hook))))).
Proof.
  assert (Hlisted : listed_names (scc.Doc hook) = scc.defaultSCCs)
    by reflexivity.
  split; [reflexivity|]. split; [reflexivity|]. split; [exact Hlisted|].
  rewrite Hlisted. split; [exact isDefaultSCC_true_iff|].
  intros request oldScc newScc Hrender. split; intros Hop.
  - rewrite (authorized_delete request oldScc newScc Hop Hrender).
    destruct (scc.isDefaultSCC oldScc) eqn:Hdefault.
    + apply isDefaultSCC_true_iff in Hdefault. settle.
    + apply isDefaultSCC_false_iff in Hdefault. settle.
  - rewrite (authorized_update request oldScc newScc Hop Hrender).
    destruct (scc.isDefaultSCC oldScc) eqn:Hdefault.
    + apply isDefaultSCC_true_iff in Hdefault. settle.
    + apply isDefaultSCC_false_iff in Hdefault.
      destruct (scc.isSCCwithHigherPriority newScc); settle.
Qed.

(** C10. The decision does not depend on the requester: two requests with
    the same uid, operation and payloads get the same response, whatever
    their usernames (and kinds) are; in particular replacing the username
    leaves the response unchanged.  The validity predicate does read the
    username: it separates a request from the same request with an empty
    username. *)
Theorem authorized_ignores_username :
  (forall r1 r2 : admissionctl.Request,
     admissionctl.UID r1 = admissionctl.UID r2 ->
     admissionctl.Operation r1 = admissionctl.Operation r2 ->
     admissionctl.Object r1 = admissionctl.Object r2 ->
     admissionctl.OldObject r1 = admissionctl.OldObject r2 ->
     scc.authorized hook r1 = scc.authorized hook r2)
  /\ (forall username request,
       scc.authorized hook (with_username username request)
       = scc.authorized hook request)
  /\ (exists username request,
       scc.Validate hook (with_username username request)
       <> scc.Validate hook request).
Proof.
  split; [|split].
  - intros r1 r2 Huid Hop Hnew Hold.
    unfold scc.authorized, scc.renderSCC. rewrite Huid, Hop, Hnew, Hold.
    reflexivity.
  - reflexivity.
  - exists "".
    exists {| admissionctl.UID := "";
              admissionctl.Kind :=
                {| metav1.Group := "security.openshift.io";
                   metav1.Version := "v1";
                   metav1.Kind := "SecurityContextConstraint" |};
              admissionctl.Operation := admissionv1.Create;
              admissionctl.UserInfo := {| authenticationv1.Username := "alice" |};
              admissionctl.Object := {| runtime.Raw := [] |};
              admissionctl.OldObject := {| runtime.Raw := [] |} |}.
    discriminate.
Qed.

End Decisions.

(** *** The properties on concrete requests *)

(** C1, at a request whose prior payload does not decode: the request has a
    uid, the rendering fails, and the response carries the empty uid, not
    the request's. *)
Example decode_failure_response_has_no_uid :
  admissionctl.UID fixture.delete_malformed = "705ab4f5-6393-11e8-b7cc-42010a800002"
  /\ scc.renderSCC fixture.hook fixture.delete_malformed
     = inr "couldn't get version/kind; json parse error"
  /\ admissionv1.UID (scc.authorized fixture.hook fixture.delete_malformed) = ""
  /\ admissionv1.UID (scc.authorized fixture.hook fixture.delete_malformed)
     <> admissionctl.UID fixture.delete_malformed.
Proof.
  assert (Hrender : scc.renderSCC fixture.hook fixture.delete_malformed
                    = inr "couldn't get version/kind; json parse error")
    by reflexivity.
  split; [reflexivity|]. split; [exact Hrender|].
  rewrite authorized_UID, Hrender. split; [reflexivity | discriminate].
Qed.

Lemma update_checks_in_order_witness :
  admissionctl.Operation fixture.update_restricted = admissionv1.Update
  /\ scc.renderSCC fixture.hook fixture.update_restricted
     = inl (fixture.object "restricted" None, fixture.object "restricted" (Some 5))
  /\ scc.authorized fixture.hook fixture.update_restricted
     = denied fixture.uid "Modifying default SCCs is not allowed".
Proof.
  split; [reflexivity|]. split; [reflexivity|].
  apply (proj1 (update_checks_in_order fixture.hook fixture.update_restricted
                  (fixture.object "restricted" None)
                  (fixture.object "restricted" (Some 5))
                  eq_refl eq_refl)).
  apply (isDefaultSCC_true_iff (fixture.object "restricted" None)). reflexivity.
Defined.

Lemma create_denied_iff_above_ceiling_witness :
  admissionctl.Operation fixture.create_custom_15 = admissionv1.Create
  /\ scc.renderSCC fixture.hook fixture.create_custom_15
     = inl (securityv1.zero, fixture.object "custom" (Some 15))
  /\ scc.authorized fixture.hook fixture.create_custom_15
     = denied fixture.uid "Creating SCC with priority higher than 10 is not allowed".
Proof.
  split; [reflexivity|]. split; [reflexivity|].
  apply (proj1 (create_denied_iff_above_ceiling fixture.hook fixture.create_custom_15
                  securityv1.zero (fixture.object "custom" (Some 15))
                  eq_refl eq_refl)).
  exists 15. split; [reflexivity | lia].
Defined.

Lemma delete_denied_iff_default_witness :
  admissionctl.Operation fixture.delete_custom = admissionv1.Delete
  /\ scc.renderSCC fixture.hook fixture.delete_custom
     = inl (fixture.object "custom" None, securityv1.zero)
  /\ scc.authorized fixture.hook fixture.delete_custom = allowed fixture.uid.
Proof.
  split; [reflexivity|]. split; [reflexivity|].
  apply (proj2 (delete_denied_iff_default fixture.hook fixture.delete_custom
                  (fixture.object "custom" None) securityv1.zero
                  eq_refl eq_refl)).
  apply (isDefaultSCC_false_iff (fixture.object "custom" None)). reflexivity.
Defined.

Lemma other_operation_allowed_witness :
  admissionctl.Operation fixture.connect_custom <> admissionv1.Create
  /\ admissionctl.Operation fixture.connect_custom <> admissionv1.Update
  /\ admissionctl.Operation fixture.connect_custom <> admissionv1.Delete
  /\ scc.renderSCC fixture.hook fixture.connect_custom
     = inl (securityv1.zero, fixture.object "custom" (Some 15))
  /\ scc.authorized fixture.hook fixture.connect_custom = allowed fixture.uid.
Proof.
  assert (Hcreate : admissionctl.Operation fixture.connect_custom <> admissionv1.Create)
    by discriminate.
  assert (Hupdate : admissionctl.Operation fixture.connect_custom <> admissionv1.Update)
    by discriminate.
  assert (Hdelete : admissionctl.Operation fixture.connect_custom <> admissionv1.Delete)
    by discriminate.
  repeat (split; [assumption || reflexivity|]).
  exact (other_operation_allowed fixture.hook fixture.connect_custom
           securityv1.zero (fixture.object "custom" (Some 15))
           Hcreate Hupdate Hdelete eq_refl).
Defined.

Lemma decode_failure_rejects_witness :
  (runtime.Raw (admissionctl.OldObject fixture.delete_malformed) <> []
   /\ snd (fixture.decode fixture.objects
             (admissionctl.OldObject fixture.delete_malformed) securityv1.zero)
      <> None)
  /\ exists err : string,
       scc.renderSCC fixture.hook fixture.delete_malformed = inr err
       /\ admissionv1.Result (scc.authorized fixture.hook fixture.delete_malformed)
          = Some (rejected err).
Proof.
  assert (Hfail :
    runtime.Raw (admissionctl.OldObject fixture.delete_malformed) <> []
    /\ snd (fixture.decode fixture.objects
              (admissionctl.OldObject fixture.delete_malformed) securityv1.zero)
       <> None)
    by (split; discriminate).
  split; [exact Hfail|].
  destruct (decode_failure_rejects fixture.hook fixture.delete_malformed
              (or_introl Hfail))
    as [err [Hrender [_ [_ [Hresult _]]]]].
  exists err. split; [exact Hrender | exact Hresult].
Defined.

Lemma empty_payload_renders_zero_witness :
  scc.renderSCC fixture.hook fixture.create_empty
  = inl (securityv1.zero, securityv1.zero).
Proof.
  apply (proj1 (proj2 (proj2
           (empty_payload_renders_zero fixture.hook fixture.create_empty))));
    reflexivity.
Defined.

Lemma Doc_lists_protected_names_witness :
  scc.authorized fixture.hook fixture.delete_restricted
  = denied fixture.uid "Deleting default SCCs is not allowed".
Proof.
  destruct (Doc_lists_protected_names fixture.hook)
    as [_ [_ [Hlisted [_ Hdenials]]]].
  apply (proj1 (Hdenials fixture.delete_restricted
                  (fixture.object "restricted" None) securityv1.zero eq_refl)).
  - reflexivity.
  - rewrite Hlisted.
    apply (isDefaultSCC_true_iff (fixture.object "restricted" None)). reflexivity.
Defined.

Lemma authorized_ignores_username_witness :
  scc.authorized fixture.hook
    (fixture.request fixture.uid admissionv1.Update "alice"
       "{metadata: {name: custom}}" "{metadata: {name: custom}, priority: 15}")
  = scc.authorized fixture.hook
      (fixture.request fixture.uid admissionv1.Update "system:admin"
         "{metadata: {name: custom}}" "{metadata: {name: custom}, priority: 15}").
Proof.
  apply (proj1 (authorized_ignores_username fixture.hook)); reflexivity.
Defined.

End scc_properties.

(* ------------------------------------------------------------------ *)
(** ** Further properties of the package *)

Module scc_coverage.

Import decision.

Lemma rendered_pair_iff {E : Type}
  (oldScc newScc : securityv1.SecurityContextConstraints)
  (P : securityv1.SecurityContextConstraints ->
       securityv1.SecurityContextConstraints -> Prop) :
  (exists o n, @inl _ E (oldScc, newScc) = inl (o, n) /\ P o n) <-> P oldScc newScc.
Proof.
  split.
  - intros [o [n [[= <- <-] HP]]]. exact HP.
  - intros HP. exists oldScc, newScc. split; [reflexivity | exact HP].
Qed.

Section Coverage.

Context {codec : admissionctl.Codec}.
Variable hook : scc.SCCWebHook.

(** X1. The response echoes the uid of the request exactly when the two
    objects were rendered or the request's uid is the empty string. *)
Theorem Authorized_echoes_uid_iff (request : admissionctl.Request) :
  admissionv1.UID (scc.Authorized hook request) = admissionctl.UID request
  <-> (exists oldScc newScc, scc.renderSCC hook request = inl (oldScc, newScc))
      \/ admissionctl.UID request = "".
Proof.
  unfold scc.Authorized. rewrite scc_properties.authorized_UID.
  destruct (scc.renderSCC hook request) as [[oldScc newScc]|err].
  - split; [intros _; left; exists oldScc, newScc; reflexivity | reflexivity].
  - split.
    + intros Huid. right. symmetry. exact Huid.
    + intros [[o [n Hrender]]|Huid]; [discriminate | symmetry; exact Huid].
Qed.

(** X2. A request is allowed exactly when its objects are rendered and no
    rule of its operation applies: for Delete the prior name is not a
    default name, for Create the proposed priority is not above the ceiling,
    for Update both. *)
Theorem Authorized_allowed_iff (request : admissionctl.Request) :
  admissionv1.Allowed (scc.Authorized hook request) = true
  <-> exists oldScc newScc,
        scc.renderSCC hook request = inl (oldScc, newScc)
        /\ ((admissionctl.Operation request = admissionv1.Delete ->
             ~ In (securityv1.Name oldScc) scc.defaultSCCs)
            /\ (admissionctl.Operation request = admissionv1.Create ->
                ~ above_ceiling newScc)
            /\ (admissionctl.Operation request = admissionv1.Update ->
                ~ In (securityv1.Name oldScc) scc.defaultSCCs
                /\ ~ above_ceiling newScc)).
Proof.
  unfold scc.Authorized, scc.authorized.
  destruct (scc.renderSCC hook request) as [[oldScc newScc]|err];
    [|split; [discriminate | intros [o [n [Hrender _]]]; discriminate]].
  rewrite (rendered_pair_iff oldScc newScc
             (fun o n =>
                (admissionctl.Operation request = admissionv1.Delete ->
                 ~ In (securityv1.Name o) scc.defaultSCCs)
                /\ (admissionctl.Operation request = admissionv1.Create ->
                    ~ above_ceiling n)
                /\ (admissionctl.Operation request = admissionv1.Update ->
                    ~ In (securityv1.Name o) scc.defaultSCCs /\ ~ above_ceiling n))).
  scc_properties.switch_on request;
    (destruct (scc.isDefaultSCC oldScc) eqn:Hdefault;
     [apply scc_properties.isDefaultSCC_true_iff in Hdefault
     |apply scc_properties.isDefaultSCC_false_iff in Hdefault]);
    (destruct (scc.isSCCwithHigherPriority newScc) eqn:Hpriority;
     [apply scc_properties.isSCCwithHigherPriority_true_iff in Hpriority
     |apply scc_properties.isSCCwithHigherPriority_false_iff in Hpriority]);
    set (D := In (securityv1.Name oldScc) scc.defaultSCCs) in *; simpl;
    unfold admissionv1.Delete, admissionv1.Create, admissionv1.Update in *;
    (split;
     [ intros Hallowed; try discriminate;
       repeat split; intros Hop; first [tauto | congruence]
     | intros [Hd [Hc Hu]]; try reflexivity; exfalso; tauto ]).
Qed.

(** X3. Every response has a status, and the status tells the three
    outcomes apart: 200 exactly for an allowed response, 400 exactly when
    the rendering failed, 403 otherwise.  A 403 comes with a reason and no
    message, a 400 with no reason and the error's text as message. *)
Theorem Authorized_status (request : admissionctl.Request) :
  exists status,
    admissionv1.Result (scc.Authorized hook request) = Some status
    /\ (metav1.Code status = 200 \/ metav1.Code status = 403
        \/ metav1.Code status = 400)
    /\ (metav1.Code status = 200
        <-> admissionv1.Allowed (scc.Authorized hook request) = true)
    /\ (metav1.Code status = 400
        <-> exists err, scc.renderSCC hook request = inr err
                        /\ metav1.Message status = admissionctl.Error err
                        /\ metav1.Reason status = "")
    /\ (metav1.Code status = 403 ->
        metav1.Reason status <> "" /\ metav1.Message status = "").
Proof.
  unfold scc.Authorized, scc.authorized.
  destruct (scc.renderSCC hook request) as [[oldScc newScc]|err].
  - repeat match goal with
    | |- context [if ?b then _ else _] => destruct b
    end;
      (eexists; split; [reflexivity|]; simpl;
       unfold http.StatusOK, http.StatusForbidden;
       repeat split; intros; try discriminate; try tauto;
       try match goal with
           | H : exists _, _ |- _ => destruct H as [? [? _]]; discriminate
           end;
       auto).
  - eexists. split; [reflexivity|]. simpl.
    repeat split; intros; try discriminate; auto.
    exists err. repeat split.
Qed.

(** X4. With the same uid and payloads, an Update is allowed exactly when
    both the Delete and the Create are: the Update rules are the Delete rule
    and the Create rule together. *)
Theorem Update_allowed_iff_Delete_and_Create (request : admissionctl.Request) :
  admissionv1.Allowed
    (scc.Authorized hook (with_operation admissionv1.Update request))
  = admissionv1.Allowed
      (scc.Authorized hook (with_operation admissionv1.Delete request))
    && admissionv1.Allowed
         (scc.Authorized hook (with_operation admissionv1.Create request)).
Proof.
  unfold scc.Authorized, scc.authorized.
  rewrite !scc_properties.renderSCC_with_operation.
  destruct (scc.renderSCC hook request) as [[oldScc newScc]|err];
    [|reflexivity].
  simpl.
  destruct (scc.isDefaultSCC oldScc);
    destruct (scc.isSCCwithHigherPriority newScc); reflexivity.
Qed.

(** X5. The errors of the rendering in their order: an error of building
    the decoder is returned whatever the payloads are, and with a decoder an
    error of decoding a prior payload that is not empty is returned whatever
    the proposed payload is; the response is the rejection with that
    error's text. *)
Theorem renderSCC_first_error (request : admissionctl.Request) :
  (forall err,
     snd (admissionctl.NewDecoder (scc.s hook)) = Some err ->
     scc.renderSCC hook request = inr err
     /\ admissionv1.Result (scc.Authorized hook request)
        = Some (rejected (admissionctl.Error err)))
  /\ (forall err,
       snd (admissionctl.NewDecoder (scc.s hook)) = None ->
       runtime.Raw (admissionctl.OldObject request) <> [] ->
       snd (admissionctl.DecodeRaw (fst (admissionctl.NewDecoder (scc.s hook)))
              (admissionctl.OldObject request) securityv1.zero) = Some err ->
       scc.renderSCC hook request = inr err
       /\ admissionv1.Result (scc.Authorized hook request)
          = Some (rejected (admissionctl.Error err))).
Proof.
  assert (Hresult : forall err,
            scc.renderSCC hook request = inr err ->
            scc.renderSCC hook request = inr err
            /\ admissionv1.Result (scc.Authorized hook request)
               = Some (rejected (admissionctl.Error err))).
  { intros err Hrender. split; [exact Hrender|].
    unfold scc.Authorized.
    rewrite (scc_properties.authorized_rejected hook request err Hrender).
    reflexivity. }
  split; intros err; rewrite scc_properties.renderSCC_cases in *;
    destruct (admissionctl.NewDecoder (scc.s hook)) as [decoder [e|]]; simpl.
  - intros [= ->]. apply Hresult. reflexivity.
  - discriminate.
  - discriminate.
  - intros _ Hold.
    destruct (runtime.Raw (admissionctl.OldObject request)) as [|b old];
      [congruence|].
    destruct (admissionctl.DecodeRaw decoder (admissionctl.OldObject request) _)
      as [oldScc [e|]]; simpl; [|discriminate].
    intros [= ->]. apply Hresult. reflexivity.
Qed.

(** X6. The rendering succeeds with two objects exactly when the decoder
    is built without error and each object is what its payload renders to:
    the zero value for an empty payload, and for any other payload the
    object the decoder fills, starting from the zero value, without error. *)
Theorem renderSCC_success_iff (request : admissionctl.Request)
  (oldScc newScc : securityv1.SecurityContextConstraints) :
  scc.renderSCC hook request = inl (oldScc, newScc)
  <-> snd (admissionctl.NewDecoder (scc.s hook)) = None
      /\ renders_to (fst (admissionctl.NewDecoder (scc.s hook)))
           (admissionctl.OldObject request) oldScc
      /\ renders_to (fst (admissionctl.NewDecoder (scc.s hook)))
           (admissionctl.Object request) newScc.
Proof.
  rewrite scc_properties.renderSCC_cases. unfold renders_to.
  destruct (admissionctl.NewDecoder (scc.s hook)) as [decoder [e|]]; simpl;
    [split; [discriminate | intros [Hnone _]; discriminate]|].
  destruct (runtime.Raw (admissionctl.OldObject request)) as [|b old];
    [|destruct (admissionctl.DecodeRaw decoder (admissionctl.OldObject request) _)
        as [o [e|]]];
    (destruct (runtime.Raw (admissionctl.Object request)) as [|c new];
     [|destruct (admissionctl.DecodeRaw decoder (admissionctl.Object request) _)
         as [n [e'|]]]);
    (split;
     [ try discriminate; intros [= <- <-];
       repeat split; first [ left; split; [reflexivity | reflexivity]
                           | right; split; [discriminate | reflexivity] ]
     | intros [_ [[[Hold Ho]|[Hold Ho]] [[Hnew Hn]|[Hnew Hn]]]];
       try congruence ]).
Qed.

(** X7. A denial of the policy, a response with status 403, is only given
    to a request whose operation the rules of the webhook register. *)
Theorem denial_only_for_registered_operation (request : admissionctl.Request)
  (status : metav1.Status) :
  admissionv1.Result (scc.Authorized hook request) = Some status ->
  metav1.Code status = 403 ->
  registered (admissionctl.Operation request) (scc.Rules hook).
Proof.
  assert (Hrule : forall operation,
            In operation ["CREATE"; "UPDATE"; "DELETE"] ->
            registered operation (scc.Rules hook)).
  { intros operation Hin. eexists. split; [left; reflexivity | exact Hin]. }
  unfold scc.Authorized, scc.authorized.
  destruct (scc.renderSCC hook request) as [[oldScc newScc]|err];
    [|intros [= <-]; discriminate].
  scc_properties.switch_on request;
    try (intros _ _; apply Hrule;
         first [rewrite Hdelete | rewrite Hcreate | rewrite Hupdate];
         simpl; tauto).
  intros [= <-]. discriminate.
Qed.

End Coverage.

(** *** On concrete requests *)

Lemma Authorized_allowed_iff_witness :
  admissionv1.Allowed (scc.Authorized fixture.hook fixture.delete_custom) = true.
Proof.
  apply (proj2 (Authorized_allowed_iff fixture.hook fixture.delete_custom)).
  exists (fixture.object "custom" None), securityv1.zero.
  split; [reflexivity|].
  split; [|split]; intros Hop; try discriminate.
  apply (scc_properties.isDefaultSCC_false_iff (fixture.object "custom" None)).
  reflexivity.
Defined.

Lemma renderSCC_first_error_witness :
  scc.renderSCC fixture.hook fixture.update_malformed
  = inr "couldn't get version/kind; json parse error"
  /\ admissionv1.Result (scc.Authorized fixture.hook fixture.update_malformed)
     = Some (rejected "couldn't get version/kind; json parse error").
Proof.
  apply (proj2 (renderSCC_first_error fixture.hook fixture.update_malformed));
    [reflexivity | discriminate | reflexivity].
Defined.

Lemma renderSCC_success_iff_witness :
  scc.renderSCC fixture.hook fixture.update_custom_15
  = inl (fixture.object "custom" None, fixture.object "custom" (Some 15)).
Proof.
  apply (proj2 (renderSCC_success_iff fixture.hook fixture.update_custom_15
                  (fixture.object "custom" None)
                  (fixture.object "custom" (Some 15)))).
  split; [reflexivity|].
  split; right; split; first [discriminate | reflexivity].
Defined.

Lemma denial_only_for_registered_operation_witness :
  admissionv1.Result (scc.Authorized fixture.hook fixture.update_custom_15)
  = Some {| metav1.Code := 403;
            metav1.Reason := "Updating SCC with priority higher than 10 is not allowed";
            metav1.Message := "" |}
  /\ registered (admissionctl.Operation fixture.update_custom_15)
       (scc.Rules fixture.hook).
Proof.
  split; [reflexivity|].
  exact (denial_only_for_registered_operation fixture.hook fixture.update_custom_15
           {| metav1.Code := 403;
              metav1.Reason := "Updating SCC with priority higher than 10 is not allowed";
              metav1.Message := "" |}
           eq_refl eq_refl).
Defined.

End scc_coverage.
